(** * CLASS++ build script ([setup.py]) and pipeline contract

    A shallow embedding of the packaging script of the repository: the
    list of compilation units, its split into the C static library and
    the C++ extension, the platform-dependent extension definition and
    the [my_cythonize] wrapper.  The numerical pipeline itself (the C++
    units the script names) is described only through its contract. *)

From Stdlib Require Import Ascii String.
From stdpp Require Import base strings list gmap.

Open Scope string_scope.
Open Scope list_scope.

(** ** Python string methods used by the script *)
Module PyStr.

(** [s.startswith(p)] *)
Definition startswith (s p : string) : bool := String.prefix p s.

(** [s.endswith(suf)]: some tail of [s] is [suf]. *)
Fixpoint endswith (s suf : string) : bool :=
  if String.eqb s suf then true
  else match s with
       | EmptyString => false
       | String _ s' => endswith s' suf
       end.

(** [s[-1]], when [s] is not empty. *)
Fixpoint last_char (s : string) : option ascii :=
  match s with
  | EmptyString => None
  | String c EmptyString => Some c
  | String _ s' => last_char s'
  end.

(** [bool(s)]: a string is truthy when it is not empty. *)
Definition truthy (s : string) : bool :=
  match s with EmptyString => false | _ => true end.

End PyStr.

(** ** [os.path.join] for two components

    [os.path] is [ntpath] exactly when [os.name == 'nt'] and
    [posixpath] otherwise.  Both joins are given for components
    without a drive or UNC prefix ([splitdrive] returns an empty drive
    for them), which is all the script passes. *)
Module OsPath.
Import PyStr.

Definition posixpath_join (a b : string) : string :=
  if startswith b "/" then b
  else if negb (truthy a) || endswith a "/" then a +:+ b
  else a +:+ "/" +:+ b.

(** [c in '\\/'] *)
Definition in_seps (c : ascii) : bool :=
  Ascii.eqb c "\"%char || Ascii.eqb c "/"%char.

Definition ntpath_join (path p : string) : string :=
  if match p with String c _ => in_seps c | EmptyString => false end
  then p
  else
    let result_path :=
      match last_char path with
      | Some l => if in_seps l then path else path +:+ "\"
      | None => path
      end in
    result_path +:+ p.

Definition join (os_name : string) (a b : string) : string :=
  if String.eqb os_name "nt" then ntpath_join a b else posixpath_join a b.

End OsPath.

(** ** [setuptools.Extension] *)
Module Ext.
Record t := Extension {
  name : string;
  sources : list string;
  include_dirs : list string;
  libraries : list string;
  library_dirs : list string;
  language : string;
  extra_compile_args : list string;
  define_macros : list (string * string)
}.
End Ext.

(** ** Module-level values of [setup.py]

    The script reads two things from its environment before it calls
    anything: [os.name] and [numpy.get_include()]. *)
Module SetupPy.

Record Env := { os_name : string; numpy_get_include : string }.

Section Globals.
Variable env : Env.

(** [prepend = lambda dir, *fnames:
      list(map(lambda s: os.path.join(dir, s), fnames))] *)
Definition prepend (dir : string) (fnames : list string) : list string :=
  map (fun s => OsPath.join (os_name env) dir s) fnames.

Definition source_files : list string :=
  prepend "hyrec"
    [ "helium.c"; "history.c"; "hydrogen.c"; "hyrec.c"; "hyrectools.c" ]
  ++ prepend "source"
    [ "background_module.cpp"; "cosmology.cpp"; "input_module.cpp";
      "lensing_module.cpp"; "nonlinear_module.cpp";
      "perturbations_module.cpp"; "primordial_module.cpp";
      "spectra_module.cpp"; "thermodynamics_module.cpp";
      "transfer_module.cpp" ]
  ++ prepend "tools"
    [ "arrays.c"; "common.c"; "dark_radiation.cpp"; "dei_rkck.c";
      "evolver_ndf15.cpp"; "evolver_rkck.c"; "exceptions.cpp";
      "growTable.c"; "hyperspherical.c"; "non_cold_dark_matter.cpp";
      "parser.cpp"; "quadrature.c"; "sparse.c";
      "trigonometric_integrals.c" ].

(** [[s for s in source_files if s.endswith('.c')]] *)
Definition c_source_files : list string :=
  List.filter (fun s => PyStr.endswith s ".c") source_files.

(** [[s for s in source_files if s.endswith('.cpp')]] *)
Definition cpp_source_files : list string :=
  List.filter (fun s => PyStr.endswith s ".cpp") source_files.

Definition root_folder : string := ".".

(** [include_dirs = [numpy.get_include()]] followed by the
    [for sub_folder in ...: include_dirs.append(...)] loop. *)
Definition include_dirs : list string :=
  fold_left
    (fun acc sub_folder =>
       acc ++ [OsPath.join (os_name env) root_folder sub_folder])
    [ "include"; "main"; "source"; "tools" ]
    [ numpy_get_include env ].

Definition classy_ext : Ext.t :=
  {| Ext.name := "classy";
     Ext.sources := [ "classy.pyx" ] ++ cpp_source_files;
     Ext.include_dirs := include_dirs;
     Ext.libraries :=
       if negb (String.eqb (os_name env) "nt") then [ "m" ] else [];
     Ext.library_dirs := [ root_folder ];
     Ext.language := "c++";
     Ext.extra_compile_args :=
       if negb (String.eqb (os_name env) "nt")
       then [ "-std=c++17" ] else [ "/std:c++17" ];
     Ext.define_macros :=
       [ ("NPY_NO_DEPRECATED_API", "NPY_1_7_API_VERSION") ] |}.

(** [myclib = ('myclib', {'sources': ..., 'include_dirs': ...})] *)
Definition myclib : string * gmap string (list string) :=
  ("myclib",
   <["sources" := c_source_files]>
     (<["include_dirs" := include_dirs]> ∅)).

End Globals.

End SetupPy.

(** ** The calls of the script: [my_cythonize] and [setup]

    The script reads a file, executes its text, and calls [cythonize]
    and [setup].  A computation takes the world (the files of the
    working directory and the calls made so far) and either returns a
    value or raises. *)
Module Script.
Import SetupPy.

Inductive PyVal := PyInt (n : Z) | PyBool (b : bool).

(** [*args, **kwargs] of a call to [cythonize] *)
Record CallArgs := { args : list Ext.t; kwargs : gmap string PyVal }.

(** keyword arguments of the call to [setup] *)
Record SetupKwargs := {
  libraries : list (string * gmap string (list string));
  ext_modules : list Ext.t;
  packages : list string;
  package_dir : gmap string string;
  package_data : gmap string (list string)
}.

Inductive Event :=
| EvExec (code : string)
| EvCythonize (a : CallArgs)
| EvSetup (k : SetupKwargs).

Inductive Exn :=
| FileNotFoundError (filename : string)
| OtherException (what : string).

Inductive Outcome (A : Type) :=
| Return (a : A)
| Raise (e : Exn).
Arguments Return {A} a.
Arguments Raise {A} e.

Record World := { files : gmap string string; trace : list Event }.

Definition Py (A : Type) : Type := World -> Outcome A * World.

Definition ret {A} (a : A) : Py A := fun w => (Return a, w).

Definition bind {A B} (m : Py A) (k : A -> Py B) : Py B :=
  fun w =>
    match m w with
    | (Return a, w') => k a w'
    | (Raise e, w') => (Raise e, w')
    end.

Notation "x <- m ;; k" := (bind m (fun x => k))
  (at level 100, m at next level, right associativity).

(** [with open(path, 'r') as f: ... f.read()] *)
Definition open_read (path : string) : Py string :=
  fun w =>
    match files w !! path with
    | Some text => (Return text, w)
    | None => (Raise (FileNotFoundError path), w)
    end.

(** A call that leaves the script: it is recorded, and what it does
    to the files and what it returns is the callee's business. *)
Definition external {A} (ev : Event)
    (impl : gmap string string -> Outcome A * gmap string string) : Py A :=
  fun w =>
    let '(r, fs) := impl (files w) in
    (r, {| files := fs; trace := trace w ++ [ev] |}).

(** The arguments of [my_cythonize(classy_ext, language_level=3,
    annotate=False)]. *)
Definition cythonize_args (env : Env) : CallArgs :=
  {| args := [ classy_ext env ];
     kwargs := <["language_level" := PyInt 3]>
                 (<["annotate" := PyBool false]> ∅) |}.

(** The keyword arguments of [setup(...)], given the value [exts] of
    the [my_cythonize] call. *)
Definition setup_kwargs (env : Env) (exts : list Ext.t) : SetupKwargs :=
  {| libraries := [ myclib env ];
     ext_modules := exts;
     packages := [ "classy.bbn"; "classy.hyrec" ];
     package_dir := <["classy" := EmptyString]> ∅;
     package_data := <["classy.bbn" := [ "*.dat" ]]>
                       (<["classy.hyrec" := [ "*.dat" ]]> ∅) |}.

Section Externals.
Variable exec_code :
  string -> gmap string string -> Outcome unit * gmap string string.
Variable cythonize_impl :
  CallArgs -> gmap string string -> Outcome (list Ext.t) * gmap string string.
Variable setup_impl :
  SetupKwargs -> gmap string string -> Outcome unit * gmap string string.

Definition exec (code : string) : Py unit :=
  external (EvExec code) (exec_code code).

Definition cythonize (a : CallArgs) : Py (list Ext.t) :=
  external (EvCythonize a) (cythonize_impl a).

Definition setup (k : SetupKwargs) : Py unit :=
  external (EvSetup k) (setup_impl k).

Definition my_cythonize (a : CallArgs) : Py (list Ext.t) :=
  code <- open_read "generate_wrapper.py" ;;
  _ <- exec code ;;
  cythonize a.

(** The [setup(...)] statement that ends the script; its keyword
    arguments are evaluated before [setup] is entered. *)
Definition main (env : Env) : Py unit :=
  exts <- my_cythonize (cythonize_args env) ;;
  setup (setup_kwargs env exts).

End Externals.

End Script.

(** ** The pipeline contract

    The numerical pipeline lives in the C++ units that [source_files]
    names; what follows is its run-level contract. *)
Module Pipeline.

(** Modelled from the spec: the stages of the dependency order of the
    system overview; the C++ units that implement them are not part
    of the sources at hand. *)
Inductive Stage :=
| Background | Thermodynamics | Perturbations | Transfer
| Spectra | Nonlinear | Lensing.

(** Modelled from the spec: the error taxonomy of the error handling
    design. *)
Inductive ErrorKind :=
| ConfigurationError | NonConvergence | SingularJacobian
| BesselRecursionUnstable | OutOfDomain.

(** Modelled from the spec: a failure names the failing stage and
    its kind. *)
Record Failure := { stage : Stage; kind : ErrorKind }.

(** Modelled from the spec: the single error report of a run, either
    a background or thermodynamics failure, fatal at once, or the
    aggregated failures of the wavenumber tasks, each with its
    wavenumber. *)
Inductive Report :=
| Fatal (f : Failure)
| PerWavenumber (fs : list (nat * Failure)).

Section Run.
(** Modelled from the spec: what a run is given.  The configuration,
    the shared read-only background and thermodynamics tables, the
    table entry of one wavenumber and the tables a run returns. *)
Variables Config Shared Entry Tables : Type.
(** The wavenumber grid of a configuration; a wavenumber is named by
    its index in the grid. *)
Variable wavenumbers : Config -> list nat.
Variable shared_tables : Config -> Failure + Shared.
(** The perturbation and transfer task of one wavenumber. *)
Variable task : Config -> Shared -> nat -> Failure + Entry.
(** Spectra assembler, nonlinear corrector and lensing convolver:
    deterministic post-processors of the merged tables. *)
Variable assemble : Config -> Shared -> gmap nat Entry -> Tables.

(** Modelled from the spec: what the worker pool has gathered, by
    wavenumber; each task writes only its own entry. *)
Record Pool := {
  entries : gmap nat Entry;
  failures : gmap nat Failure
}.

(** Modelled from the spec: a run returns its tables or reports
    failure; a failed run carries no table. *)
Inductive RunResult :=
| Success (t : Tables)
| Failed (r : Report).

(** Modelled from the spec: a task runs to completion once
    dispatched; a failure ends that task only and is recorded. *)
Definition finish (cfg : Config) (sh : Shared) (p : Pool) (k : nat) : Pool :=
  match task cfg sh k with
  | inr e => {| entries := <[k := e]> (entries p); failures := failures p |}
  | inl f => {| entries := entries p; failures := <[k := f]> (failures p) |}
  end.

(** Modelled from the spec: every dispatched task is allowed to
    finish, in whatever order the tasks complete; a run starts
    from an empty pool, nothing is kept from an earlier run. *)
Definition drain (cfg : Config) (sh : Shared) (completion : list nat) : Pool :=
  foldl (finish cfg sh) {| entries := ∅; failures := ∅ |} completion.

(** Modelled from the spec: a background or thermodynamics failure
    is fatal at once; otherwise the run succeeds when no wavenumber
    task failed, and else reports the aggregated failures and
    discards the entries. *)
Definition run_in_order (cfg : Config) (completion : list nat) : RunResult :=
  match shared_tables cfg with
  | inl f => Failed (Fatal f)
  | inr sh =>
      let p := drain cfg sh completion in
      match map_to_list (failures p) with
      | [] => Success (assemble cfg sh (entries p))
      | fs => Failed (PerWavenumber fs)
      end
  end.

(** Modelled from the spec: the run of a configuration, its tasks
    completing in grid order. *)
Definition run (cfg : Config) : RunResult :=
  run_in_order cfg (wavenumbers cfg).

End Run.

Arguments Success {Tables} t.
Arguments Failed {Tables} r.
Arguments entries {Entry} p.
Arguments failures {Entry} p.
Arguments finish {Config Shared Entry} task cfg sh p k.
Arguments drain {Config Shared Entry} task cfg sh completion.
Arguments run_in_order {Config Shared Entry Tables}
  shared_tables task assemble cfg completion.
Arguments run {Config Shared Entry Tables}
  wavenumbers shared_tables task assemble cfg.

End Pipeline.

(** ** Vocabulary of the statements, and concrete inputs *)
Module Vocabulary.
Import SetupPy.

(** The core components of the system overview and the file each
    one is built from, as named in the 'source' group. *)
Inductive Component :=
| BackgroundSolver | ThermodynamicsSolver | PerturbationEngine
| TransferEngine | SpectraAssembler | NonlinearCorrector
| LensingConvolver | PrimordialModel.

Definition unit_of (c : Component) : string :=
  match c with
  | BackgroundSolver => "background_module.cpp"
  | ThermodynamicsSolver => "thermodynamics_module.cpp"
  | PerturbationEngine => "perturbations_module.cpp"
  | TransferEngine => "transfer_module.cpp"
  | SpectraAssembler => "spectra_module.cpp"
  | NonlinearCorrector => "nonlinear_module.cpp"
  | LensingConvolver => "lensing_module.cpp"
  | PrimordialModel => "primordial_module.cpp"
  end.

(** The path [os.path.join(dir, file)] the script builds. *)
Definition unit_path (env : Env) (dir file : string) : string :=
  OsPath.join (os_name env) dir file.

(** The entries of [l] that [file] names: those that end with it. *)
Definition entries_for (file : string) (l : list string) : list string :=
  List.filter (fun e => PyStr.endswith e file) l.

(** The sources of the 'myclib' static library, [myclib[1]['sources']]. *)
Definition myclib_sources (env : Env) : list string :=
  default [] ((myclib env).2 !! "sources").

(** The evolver units and the special-function units, written with
    a forward slash. *)
Definition evolver_units_slash : list string :=
  [ "tools/evolver_ndf15.cpp"; "tools/evolver_rkck.c"; "tools/sparse.c" ].

Definition hyrec_units_slash : list string :=
  [ "hyrec/helium.c"; "hyrec/history.c"; "hyrec/hydrogen.c";
    "hyrec/hyrec.c"; "hyrec/hyrectools.c" ].

Definition special_function_units_slash : list string :=
  [ "tools/hyperspherical.c"; "tools/quadrature.c" ].

(** Two platforms. *)
Definition env_posix : Env :=
  {| os_name := "posix"; numpy_get_include := "/usr/include/numpy" |}.

Definition env_nt : Env :=
  {| os_name := "nt"; numpy_get_include := "C:\numpy\include" |}.

(** The files of these units, without their directory. *)
Definition evolver_files : list string :=
  [ "evolver_ndf15.cpp"; "evolver_rkck.c"; "sparse.c" ].

Definition hyrec_files : list string :=
  [ "helium.c"; "history.c"; "hydrogen.c"; "hyrec.c"; "hyrectools.c" ].

Definition special_function_files : list string :=
  [ "hyperspherical.c"; "quadrature.c" ].

(** The same units as [ntpath.join] spells them. *)
Definition evolver_units_backslash : list string :=
  [ "tools\evolver_ndf15.cpp"; "tools\evolver_rkck.c"; "tools\sparse.c" ].

Definition hyrec_units_backslash : list string :=
  [ "hyrec\helium.c"; "hyrec\history.c"; "hyrec\hydrogen.c";
    "hyrec\hyrec.c"; "hyrec\hyrectools.c" ].

Definition special_function_units_backslash : list string :=
  [ "tools\hyperspherical.c"; "tools\quadrature.c" ].

(** A working directory with the wrapper generator and one without,
    and callees to run [my_cythonize] with: the executed text writes
    'classy.pyx', [cythonize] hands back the extensions it is given. *)
Definition world_with_wrapper : Script.World :=
  {| Script.files := <["generate_wrapper.py" := "write_pyx()"]> ∅;
     Script.trace := [] |}.

Definition world_without_wrapper : Script.World :=
  {| Script.files := ∅; Script.trace := [] |}.

Definition exec_writes_pyx (code : string) (fs : gmap string string) :
    Script.Outcome unit * gmap string string :=
  (Script.Return (), <["classy.pyx" := code]> fs).

Definition exec_raises (code : string) (fs : gmap string string) :
    Script.Outcome unit * gmap string string :=
  (Script.Raise (Script.OtherException code), fs).

Definition cythonize_same (a : Script.CallArgs) (fs : gmap string string) :
    Script.Outcome (list Ext.t) * gmap string string :=
  (Script.Return (Script.args a), fs).

Definition setup_done (k : Script.SetupKwargs) (fs : gmap string string) :
    Script.Outcome unit * gmap string string :=
  (Script.Return (), fs).

(** A run over four wavenumbers whose task of index 2 does not
    converge. *)
Definition grid4 (cfg : unit) : list nat := [ 0; 1; 2; 3 ].

Definition shared_ok (cfg : unit) : Pipeline.Failure + unit := inr ().

Definition task_fails_at_2 (cfg : unit) (sh : unit) (k : nat) :
    Pipeline.Failure + nat :=
  if Nat.eqb k 2
  then inl {| Pipeline.stage := Pipeline.Perturbations;
              Pipeline.kind := Pipeline.NonConvergence |}
  else inr (10 * k).

Definition task_ok (cfg : unit) (sh : unit) (k : nat) :
    Pipeline.Failure + nat := inr (10 * k).

Definition assemble_entries (cfg : unit) (sh : unit) (m : gmap nat nat) :
    list (nat * nat) := map_to_list m.

End Vocabulary.

(** ** Predicates on path components, and further concrete inputs *)
Module Paths.
Import SetupPy.

(** Some character of [s] is a path separator, '/' or backslash. *)
Fixpoint has_sep (s : string) : bool :=
  match s with
  | EmptyString => false
  | String c s' => OsPath.in_seps c || has_sep s'
  end.


(** [s] is empty or ends with a path separator. *)
Definition sep_closed (s : string) : Prop :=
  s = EmptyString
  \/ exists l, PyStr.last_char s = Some l /\ OsPath.in_seps l = true.


(** The sub-folders of the [include_dirs] loop. *)
Definition sub_folders : list string :=
  [ "include"; "main"; "source"; "tools" ].

(** The names of the three groups of [source_files] that end
    with '.c', and those that end with '.cpp'. *)
Definition hyrec_c_names : list string :=
  [ "helium.c"; "history.c"; "hydrogen.c"; "hyrec.c"; "hyrectools.c" ].

Definition source_cpp_names : list string :=
  [ "background_module.cpp"; "cosmology.cpp"; "input_module.cpp";
    "lensing_module.cpp"; "nonlinear_module.cpp";
    "perturbations_module.cpp"; "primordial_module.cpp";
    "spectra_module.cpp"; "thermodynamics_module.cpp";
    "transfer_module.cpp" ].

Definition tools_c_names : list string :=
  [ "arrays.c"; "common.c"; "dei_rkck.c"; "evolver_rkck.c"; "growTable.c";
    "hyperspherical.c"; "quadrature.c"; "sparse.c";
    "trigonometric_integrals.c" ].

Definition tools_cpp_names : list string :=
  [ "dark_radiation.cpp"; "evolver_ndf15.cpp"; "exceptions.cpp";
    "non_cold_dark_matter.cpp"; "parser.cpp" ].

(** A [cythonize] that raises, and a [setup] that raises. *)
Definition cythonize_raises (a : Script.CallArgs) (fs : gmap string string) :
    Script.Outcome (list Ext.t) * gmap string string :=
  (Script.Raise (Script.OtherException "CompileError"), fs).

Definition setup_raises (k : Script.SetupKwargs) (fs : gmap string string) :
    Script.Outcome unit * gmap string string :=
  (Script.Raise (Script.OtherException "DistutilsError"), fs).

End Paths.

(** ** Facts about the string methods *)
Section PyStrFacts.
Import PyStr.

Lemma append_empty (s : string) : EmptyString +:+ s = s.
Proof. reflexivity. Qed.

Lemma append_String (c : ascii) (p s : string) :
  String c p +:+ s = String c (p +:+ s).
Proof. reflexivity. Qed.

Lemma endswith_spec (s suf : string) :
  endswith s suf = true <-> exists p, s = p +:+ suf.
Proof.
  induction s as [|c s IH]; cbn [endswith].
  - destruct (String.eqb_spec EmptyString suf) as [<-|Hne].
    + split; [intros _; by exists EmptyString|done].
    + split; [done|]. intros [[|c p] Hp].
      * rewrite append_empty in Hp. congruence.
      * rewrite append_String in Hp. discriminate.
  - destruct (String.eqb_spec (String c s) suf) as [<-|Hne].
    + split; [intros _; by exists EmptyString|done].
    + rewrite IH. split.
      * intros [p ->]. by exists (String c p).
      * intros [[|c' p] Hp].
        -- rewrite append_empty in Hp. congruence.
        -- rewrite append_String in Hp. injection Hp as -> ->. by exists p.
Qed.

Lemma last_char_app (p s : string) :
  s <> EmptyString -> last_char (p +:+ s) = last_char s.
Proof.
  intros Hs. induction p as [|c p IH]; [done|].
  rewrite append_String, <- IH. cbn [last_char].
  destruct (p +:+ s) eqn:E; [|done].
  destruct p; [rewrite append_empty in E; congruence|].
  rewrite append_String in E. discriminate.
Qed.

Lemma endswith_last_char (s suf : string) (c : ascii) :
  endswith s suf = true -> last_char suf = Some c -> last_char s = Some c.
Proof.
  intros [p ->]%endswith_spec Hc. rewrite last_char_app; [done|].
  intros ->. discriminate.
Qed.

(** No string ends with both '.c' and '.cpp'. *)
Lemma endswith_c_not_cpp (s : string) :
  endswith s ".c" = true -> endswith s ".cpp" = false.
Proof.
  intros Hc. destruct (endswith s ".cpp") eqn:Hcpp; [|done].
  pose proof (endswith_last_char s ".c" "c" Hc eq_refl) as H1.
  pose proof (endswith_last_char s ".cpp" "p" Hcpp eq_refl) as H2.
  congruence.
Qed.

(** So the two comprehensions of the script never select the same
    string, whatever list they are run on. *)
Lemma c_filter_cpp_filter_disjoint (l : list string) :
  Forall (fun s => s ∉ List.filter (fun s => endswith s ".cpp") l)
         (List.filter (fun s => endswith s ".c") l).
Proof.
  apply Forall_forall. intros s Hc Hcpp.
  apply list_elem_of_In, filter_In in Hc as [_ Hc].
  apply list_elem_of_In, filter_In in Hcpp as [_ Hcpp].
  apply endswith_c_not_cpp in Hc. congruence.
Qed.
End PyStrFacts.

(** ** Splitting a list with two filters *)
Section FilterFacts.
Context {A : Type}.
Implicit Types (p q : A -> bool) (l : list A).

Lemma filter_sublist_of p l : List.filter p l `sublist_of` l.
Proof.
  induction l as [|x l IH]; simpl; [constructor|].
  destruct (p x); by constructor.
Qed.

Lemma filter_split_perm p q l :
  Forall (fun x => xorb (p x) (q x) = true) l ->
  List.filter p l ++ List.filter q l ≡ₚ l.
Proof.
  induction 1 as [|x l Hx _ IH]; simpl; [done|].
  destruct (p x), (q x); simpl in Hx; try discriminate.
  - simpl. by f_equiv.
  - rewrite <- Permutation_middle. by f_equiv.
Qed.
End FilterFacts.

(** ** The lists of the script on a given platform *)
Section Platform.
Import SetupPy Vocabulary.
Variable env : Env.

(** Only whether [os.name] is ['nt'] matters to the path lists. *)
Lemma source_files_platform :
  source_files env =
  if String.eqb (os_name env) "nt"
  then source_files env_nt else source_files env_posix.
Proof.
  unfold source_files, prepend, OsPath.join. simpl os_name.
  by destruct (String.eqb (os_name env) "nt").
Qed.

Lemma c_source_files_platform :
  c_source_files env =
  if String.eqb (os_name env) "nt"
  then c_source_files env_nt else c_source_files env_posix.
Proof.
  unfold c_source_files. rewrite source_files_platform.
  by destruct (String.eqb (os_name env) "nt").
Qed.

Lemma cpp_source_files_platform :
  cpp_source_files env =
  if String.eqb (os_name env) "nt"
  then cpp_source_files env_nt else cpp_source_files env_posix.
Proof.
  unfold cpp_source_files. rewrite source_files_platform.
  by destruct (String.eqb (os_name env) "nt").
Qed.

Lemma myclib_sources_eq : myclib_sources env = c_source_files env.
Proof. unfold myclib_sources, myclib. simpl. by rewrite lookup_insert_eq. Qed.

Lemma classy_sources_eq :
  Ext.sources (classy_ext env) = "classy.pyx" :: cpp_source_files env.
Proof. reflexivity. Qed.

Lemma source_files_xor :
  Forall (fun s => xorb (PyStr.endswith s ".c") (PyStr.endswith s ".cpp") = true)
         (source_files env).
Proof.
  rewrite source_files_platform.
  destruct (String.eqb (os_name env) "nt");
    apply (bool_decide_unpack _); by vm_compute.
Qed.
End Platform.

(** ** The build lists: claims about [source_files] and its split *)
Section BuildLists.
Import SetupPy Vocabulary.

(** Deciding a closed statement about the lists by evaluation. *)
Local Ltac by_evaluation := apply (bool_decide_unpack _); by vm_compute.

(** Case analysis on the platform, once the lists are rewritten to
    those of the two concrete platforms. *)
Local Ltac on_each_platform env :=
  try rewrite (myclib_sources_eq env);
  try rewrite (classy_sources_eq env);
  try rewrite (source_files_platform env);
  try rewrite (c_source_files_platform env);
  try rewrite (cpp_source_files_platform env);
  unfold unit_path, OsPath.join;
  destruct (String.eqb (os_name env) "nt").

(** The list as the script builds it off Windows and on it. *)
Example source_files_posix :
  source_files env_posix =
  [ "hyrec/helium.c"; "hyrec/history.c"; "hyrec/hydrogen.c";
    "hyrec/hyrec.c"; "hyrec/hyrectools.c";
    "source/background_module.cpp"; "source/cosmology.cpp";
    "source/input_module.cpp"; "source/lensing_module.cpp";
    "source/nonlinear_module.cpp"; "source/perturbations_module.cpp";
    "source/primordial_module.cpp"; "source/spectra_module.cpp";
    "source/thermodynamics_module.cpp"; "source/transfer_module.cpp";
    "tools/arrays.c"; "tools/common.c"; "tools/dark_radiation.cpp";
    "tools/dei_rkck.c"; "tools/evolver_ndf15.cpp";
    "tools/evolver_rkck.c"; "tools/exceptions.cpp"; "tools/growTable.c";
    "tools/hyperspherical.c"; "tools/non_cold_dark_matter.cpp";
    "tools/parser.cpp"; "tools/quadrature.c"; "tools/sparse.c";
    "tools/trigonometric_integrals.c" ].
Proof. reflexivity. Qed.

Example c_source_files_nt :
  c_source_files env_nt =
  [ "hyrec\helium.c"; "hyrec\history.c"; "hyrec\hydrogen.c";
    "hyrec\hyrec.c"; "hyrec\hyrectools.c"; "tools\arrays.c";
    "tools\common.c"; "tools\dei_rkck.c"; "tools\evolver_rkck.c";
    "tools\growTable.c"; "tools\hyperspherical.c"; "tools\quadrature.c";
    "tools\sparse.c"; "tools\trigonometric_integrals.c" ].
Proof. reflexivity. Qed.

Example include_dirs_posix :
  include_dirs env_posix =
  [ "/usr/include/numpy"; "./include"; "./main"; "./source"; "./tools" ].
Proof. reflexivity. Qed.

(** C1: for each core pipeline component, exactly one entry of
    [source_files] is named after its unit, that entry is the unit's
    file in directory 'source', and it is a member of
    [cpp_source_files] and of the sources of the 'classy'
    extension. *)
Theorem core_components_built (env : Env) (c : Component) :
  entries_for (unit_of c) (source_files env)
    = [ unit_path env "source" (unit_of c) ]
  /\ unit_path env "source" (unit_of c) ∈ cpp_source_files env
  /\ unit_path env "source" (unit_of c) ∈ Ext.sources (classy_ext env).
Proof.
  on_each_platform env; destruct c;
    (split; [by vm_compute|split; by_evaluation]).
Qed.

(** C3: [source_files] has 29 entries, 5 of group 'hyrec', 10 of
    group 'source' and 14 of group 'tools'; to the nearest dozen
    that is two dozen. *)
Theorem source_files_count (env : Env) :
  length (source_files env) = 5 + 10 + 14
  /\ (length (source_files env) + 6) `div` 12 = 2.
Proof. on_each_platform env; by vm_compute. Qed.

(** C8: every entry of [source_files] ends with exactly one of '.c'
    and '.cpp'; [c_source_files] and [cpp_source_files] are
    disjoint sublists of [source_files], in its order, that together
    hold every entry once; every entry of [source_files] is a source
    of exactly one of the 'myclib' library and the 'classy'
    extension, the '.c' entries of the former and the '.cpp' entries
    of the latter. *)
Theorem units_partitioned (env : Env) :
  Forall (fun s => xorb (PyStr.endswith s ".c") (PyStr.endswith s ".cpp") = true)
         (source_files env)
  /\ Forall (fun s => s ∉ cpp_source_files env) (c_source_files env)
  /\ c_source_files env `sublist_of` source_files env
  /\ cpp_source_files env `sublist_of` source_files env
  /\ c_source_files env ++ cpp_source_files env ≡ₚ source_files env
  /\ myclib_sources env = c_source_files env
  /\ Ext.sources (classy_ext env) = "classy.pyx" :: cpp_source_files env
  /\ Forall (fun s =>
               (PyStr.endswith s ".c" = true
                /\ s ∈ myclib_sources env
                /\ s ∉ Ext.sources (classy_ext env))
               \/ (PyStr.endswith s ".cpp" = true
                   /\ s ∈ Ext.sources (classy_ext env)
                   /\ s ∉ myclib_sources env))
            (source_files env).
Proof.
  pose proof (source_files_xor env) as Hxor.
  split; [done|].
  split; [apply c_filter_cpp_filter_disjoint|].
  split; [apply filter_sublist_of|].
  split; [apply filter_sublist_of|].
  split; [by apply filter_split_perm|].
  split; [apply myclib_sources_eq|].
  split; [done|].
  on_each_platform env; by_evaluation.
Qed.

(** C10: the 'classy' extension links ['m'] exactly when [os.name]
    is not 'nt' and nothing on Windows, asks for '-std=c++17' off
    Windows and '/std:c++17' on it, and is declared with language
    'c++' on every platform. *)
Theorem classy_ext_by_platform (env : Env) :
  (Ext.libraries (classy_ext env) = [ "m" ] <-> os_name env <> "nt")
  /\ (os_name env = "nt" -> Ext.libraries (classy_ext env) = [])
  /\ (os_name env <> "nt" ->
      Ext.extra_compile_args (classy_ext env) = [ "-std=c++17" ])
  /\ (os_name env = "nt" ->
      Ext.extra_compile_args (classy_ext env) = [ "/std:c++17" ])
  /\ Ext.language (classy_ext env) = "c++".
Proof.
  unfold classy_ext; simpl.
  destruct (String.eqb_spec (os_name env) "nt") as [Hnt|Hnt]; simpl;
    repeat split; try done.
Qed.

Lemma classy_ext_by_platform_witness :
  Ext.libraries (classy_ext env_posix) = [ "m" ]
  /\ Ext.libraries (classy_ext env_nt) = []
  /\ Ext.extra_compile_args (classy_ext env_posix) = [ "-std=c++17" ]
  /\ Ext.extra_compile_args (classy_ext env_nt) = [ "/std:c++17" ].
Proof.
  split; [apply (classy_ext_by_platform env_posix); by vm_compute|].
  split; [apply (classy_ext_by_platform env_nt); reflexivity|].
  split; [apply (classy_ext_by_platform env_posix); by vm_compute|].
  apply (classy_ext_by_platform env_nt); reflexivity.
Defined.

(** C2, as stated, fails on Windows: there [os.path.join] writes a
    backslash, and none of the three paths written with a forward
    slash is an entry of [source_files]. *)
Lemma evolver_units_slash_not_on_nt :
  ~ Forall (fun u => u ∈ source_files env_nt) evolver_units_slash.
Proof. by_evaluation. Qed.

(** C2, amended: [source_files] contains the implicit multistep
    evolver unit, the explicit Runge-Kutta evolver unit and the
    sparse kernel unit, each as [os.path.join('tools', file)]; the
    three paths are written with a forward slash when [os.name] is
    not 'nt' and with a backslash when it is. *)
Theorem evolver_units_built (env : Env) :
  Forall (fun u => u ∈ source_files env)
         (map (unit_path env "tools") evolver_files)
  /\ map (unit_path env "tools") evolver_files
     = if String.eqb (os_name env) "nt"
       then evolver_units_backslash else evolver_units_slash.
Proof.
  unfold evolver_files. cbn [map].
  on_each_platform env; (split; [by_evaluation|by vm_compute]).
Qed.

(** C4, as stated, fails on Windows: the five paths written with a
    forward slash are not entries of [source_files] there. *)
Lemma hyrec_units_slash_not_on_nt :
  ~ Forall (fun u => u ∈ source_files env_nt) hyrec_units_slash.
Proof. by_evaluation. Qed.

(** C4, amended: the five recombination units, each as
    [os.path.join('hyrec', file)], are entries of [source_files],
    end with '.c' and so are in [c_source_files] and in the sources
    of 'myclib', which [setup] receives as its only library; the
    package 'classy.hyrec' is installed with '*.dat' as its package
    data.  The paths are written with a forward slash when
    [os.name] is not 'nt' and with a backslash when it is. *)
Theorem hyrec_compiled_in (env : Env) (exts : list Ext.t) :
  Forall (fun u => u ∈ source_files env
                   /\ PyStr.endswith u ".c" = true
                   /\ u ∈ c_source_files env
                   /\ u ∈ myclib_sources env)
         (map (unit_path env "hyrec") hyrec_files)
  /\ map (unit_path env "hyrec") hyrec_files
     = (if String.eqb (os_name env) "nt"
        then hyrec_units_backslash else hyrec_units_slash)
  /\ Script.libraries (Script.setup_kwargs env exts) = [ myclib env ]
  /\ "classy.hyrec" ∈ Script.packages (Script.setup_kwargs env exts)
  /\ Script.package_data (Script.setup_kwargs env exts) !! "classy.hyrec"
     = Some [ "*.dat" ].
Proof.
  split; [|split; [|split; [done|split; [by_evaluation|by vm_compute]]]].
  - unfold hyrec_files. cbn [map]. on_each_platform env; by_evaluation.
  - unfold hyrec_files. cbn [map]. on_each_platform env; by vm_compute.
Qed.

(** C5, as stated, fails on Windows: the two paths written with a
    forward slash are not entries of [source_files] there. *)
Lemma special_function_units_slash_not_on_nt :
  ~ Forall (fun u => u ∈ source_files env_nt) special_function_units_slash.
Proof. by_evaluation. Qed.

(** C5, amended: the two special-function units, each as
    [os.path.join('tools', file)], are entries of [source_files],
    end with '.c' and so are in [c_source_files] and in the sources
    of 'myclib', and are not among the sources of the 'classy'
    extension.  The paths are written with a forward slash when
    [os.name] is not 'nt' and with a backslash when it is. *)
Theorem special_functions_in_myclib (env : Env) :
  Forall (fun u => u ∈ source_files env
                   /\ PyStr.endswith u ".c" = true
                   /\ u ∈ c_source_files env
                   /\ u ∈ myclib_sources env
                   /\ u ∉ Ext.sources (classy_ext env))
         (map (unit_path env "tools") special_function_files)
  /\ map (unit_path env "tools") special_function_files
     = if String.eqb (os_name env) "nt"
       then special_function_units_backslash
       else special_function_units_slash.
Proof.
  unfold special_function_files. cbn [map].
  on_each_platform env; (split; [by_evaluation|by vm_compute]).
Qed.

End BuildLists.

(** ** The wrapper around [cythonize] *)
Section Wrapper.
Import SetupPy Vocabulary Script.

Variable exec_code :
  string -> gmap string string -> Outcome unit * gmap string string.
Variable cythonize_impl :
  CallArgs -> gmap string string -> Outcome (list Ext.t) * gmap string string.
Variable setup_impl :
  SetupKwargs -> gmap string string -> Outcome unit * gmap string string.

Lemma bind_return {A B} (m : Py A) (k : A -> Py B) (w w' : World) (a : A) :
  m w = (Return a, w') -> bind m k w = k a w'.
Proof. unfold bind. by intros ->. Qed.

Lemma bind_raise {A B} (m : Py A) (k : A -> Py B) (w w' : World) (e : Exn) :
  m w = (Raise e, w') -> bind m k w = (Raise e, w').
Proof. unfold bind. by intros ->. Qed.

Lemma open_read_present (path text : string) (w : World) :
  files w !! path = Some text -> open_read path w = (Return text, w).
Proof. unfold open_read. by intros ->. Qed.

Lemma open_read_absent (path : string) (w : World) :
  files w !! path = None ->
  open_read path w = (Raise (FileNotFoundError path), w).
Proof. unfold open_read. by intros ->. Qed.

(** Every external call adds exactly its own event to the trace. *)
Lemma external_trace {A} (ev : Event)
    (impl : gmap string string -> Outcome A * gmap string string) (w : World) :
  trace (external ev impl w).2 = trace w ++ [ev].
Proof. unfold external. by destruct (impl (files w)). Qed.

(** C9: when 'generate_wrapper.py' is absent, [my_cythonize] raises
    the file-not-found error and leaves the world as it was, so
    nothing was executed or cythonized, and the script fails with
    that error before [setup] is entered; when the file is present
    its text is executed first: if that raises, the error is passed
    on and [cythonize] is not called, and if it returns,
    [my_cythonize] is [cythonize] on the same arguments, run after
    the executed text. *)
Theorem my_cythonize_contract (a : CallArgs) (env : Env) (w : World) :
  (files w !! "generate_wrapper.py" = None ->
     my_cythonize exec_code cythonize_impl a w
       = (Raise (FileNotFoundError "generate_wrapper.py"), w)
     /\ main exec_code cythonize_impl setup_impl env w
       = (Raise (FileNotFoundError "generate_wrapper.py"), w))
  /\ (forall code w1,
        files w !! "generate_wrapper.py" = Some code ->
        exec exec_code code w = (Return (), w1) ->
        my_cythonize exec_code cythonize_impl a w
          = cythonize cythonize_impl a w1
        /\ trace (my_cythonize exec_code cythonize_impl a w).2
          = trace w ++ [ EvExec code; EvCythonize a ])
  /\ (forall code e w1,
        files w !! "generate_wrapper.py" = Some code ->
        exec exec_code code w = (Raise e, w1) ->
        my_cythonize exec_code cythonize_impl a w = (Raise e, w1)
        /\ trace w1 = trace w ++ [ EvExec code ]).
Proof.
  split; [|split].
  - intros Habsent.
    assert (my_cythonize exec_code cythonize_impl a w
            = (Raise (FileNotFoundError "generate_wrapper.py"), w)) as Hmy.
    { unfold my_cythonize.
      by rewrite (bind_raise _ _ _ _ _ (open_read_absent _ _ Habsent)). }
    split; [done|]. unfold main.
    apply bind_raise. unfold my_cythonize.
    by rewrite (bind_raise _ _ _ _ _ (open_read_absent _ _ Habsent)).
  - intros code w1 Hfile Hexec.
    assert (my_cythonize exec_code cythonize_impl a w
            = cythonize cythonize_impl a w1) as Hmy.
    { unfold my_cythonize.
      rewrite (bind_return _ _ _ _ _ (open_read_present _ _ _ Hfile)).
      by rewrite (bind_return _ _ _ _ _ Hexec). }
    split; [done|]. rewrite Hmy. unfold cythonize.
    rewrite external_trace.
    pose proof (external_trace (EvExec code) (exec_code code) w) as Ht.
    fold (exec exec_code code) in Ht. rewrite Hexec in Ht. simpl in Ht.
    by rewrite Ht, <- app_assoc.
  - intros code e w1 Hfile Hexec. split.
    + unfold my_cythonize.
      rewrite (bind_return _ _ _ _ _ (open_read_present _ _ _ Hfile)).
      by rewrite (bind_raise _ _ _ _ _ Hexec).
    + pose proof (external_trace (EvExec code) (exec_code code) w) as Ht.
      fold (exec exec_code code) in Ht. by rewrite Hexec in Ht.
Qed.

End Wrapper.

Section WrapperWitness.
Import SetupPy Vocabulary Script.

Lemma my_cythonize_contract_witness :
  (my_cythonize exec_writes_pyx cythonize_same
     (cythonize_args env_posix) world_without_wrapper
   = (Raise (FileNotFoundError "generate_wrapper.py"), world_without_wrapper)
   /\ main exec_writes_pyx cythonize_same setup_done
        env_posix world_without_wrapper
   = (Raise (FileNotFoundError "generate_wrapper.py"), world_without_wrapper))
  /\ (my_cythonize exec_writes_pyx cythonize_same
        (cythonize_args env_posix) world_with_wrapper
      = cythonize cythonize_same (cythonize_args env_posix)
          (exec exec_writes_pyx "write_pyx()" world_with_wrapper).2
      /\ trace (my_cythonize exec_writes_pyx cythonize_same
                  (cythonize_args env_posix) world_with_wrapper).2
         = trace world_with_wrapper
           ++ [ EvExec "write_pyx()"; EvCythonize (cythonize_args env_posix) ])
  /\ (my_cythonize exec_raises cythonize_same
        (cythonize_args env_posix) world_with_wrapper
      = (Raise (OtherException "write_pyx()"),
         (exec exec_raises "write_pyx()" world_with_wrapper).2)
      /\ trace (exec exec_raises "write_pyx()" world_with_wrapper).2
         = trace world_with_wrapper ++ [ EvExec "write_pyx()" ]).
Proof.
  split; [|split].
  - apply (my_cythonize_contract exec_writes_pyx cythonize_same setup_done
             (cythonize_args env_posix) env_posix world_without_wrapper).
    reflexivity.
  - apply (my_cythonize_contract exec_writes_pyx cythonize_same setup_done
             (cythonize_args env_posix) env_posix world_with_wrapper);
      reflexivity.
  - apply (my_cythonize_contract exec_raises cythonize_same setup_done
             (cythonize_args env_posix) env_posix world_with_wrapper);
      reflexivity.
Defined.

End WrapperWitness.

(** ** The pipeline contract: failure and re-runs *)
Section PipelineFacts.
Import Pipeline.

Context {Config Shared Entry Tables : Type}.
Variable shared_tables : Config -> Failure + Shared.
Variable task : Config -> Shared -> nat -> Failure + Entry.
Variable assemble : Config -> Shared -> gmap nat Entry -> Tables.

Implicit Types (cfg : Config) (sh : Shared) (p : Pool Entry) (k : nat).

(** What the pool holds for [k] once the tasks of [l] have finished:
    the entry of [k] when its task was in [l] and succeeded. *)
Lemma foldl_finish_entries cfg sh (l : list nat) p k :
  entries (foldl (finish task cfg sh) p l) !! k
  = match task cfg sh k with
    | inr e => if decide (k ∈ l) then Some e else entries p !! k
    | inl _ => entries p !! k
    end.
Proof.
  revert p. induction l as [|x l IH]; intros p; simpl.
  - by destruct (task cfg sh k).
  - rewrite IH. unfold finish.
    destruct (task cfg sh k) as [f|e] eqn:Hk.
    + destruct (task cfg sh x) as [f'|e'] eqn:Hx; simpl; [done|].
      rewrite lookup_insert_ne; [done|]. intros ->. congruence.
    + destruct (decide (k ∈ l)) as [Hin|Hnin].
      * by rewrite decide_True by set_solver.
      * destruct (decide (x = k)) as [->|Hne].
        -- rewrite Hk. simpl. rewrite lookup_insert_eq.
           by rewrite decide_True by set_solver.
        -- rewrite decide_False
             by (intros [->|?]%elem_of_cons; [by apply Hne|by apply Hnin]).
           destruct (task cfg sh x); simpl; [done|].
           by rewrite lookup_insert_ne.
Qed.

(** The same for the recorded failures. *)
Lemma foldl_finish_failures cfg sh (l : list nat) p k :
  failures (foldl (finish task cfg sh) p l) !! k
  = match task cfg sh k with
    | inl f => if decide (k ∈ l) then Some f else failures p !! k
    | inr _ => failures p !! k
    end.
Proof.
  revert p. induction l as [|x l IH]; intros p; simpl.
  - by destruct (task cfg sh k).
  - rewrite IH. unfold finish.
    destruct (task cfg sh k) as [f|e] eqn:Hk.
    + destruct (decide (k ∈ l)) as [Hin|Hnin].
      * by rewrite decide_True by set_solver.
      * destruct (decide (x = k)) as [->|Hne].
        -- rewrite Hk. simpl. rewrite lookup_insert_eq.
           by rewrite decide_True by set_solver.
        -- rewrite decide_False
             by (intros [->|?]%elem_of_cons; [by apply Hne|by apply Hnin]).
           destruct (task cfg sh x); simpl; [|done].
           by rewrite lookup_insert_ne.
    + destruct (task cfg sh x) as [f'|e'] eqn:Hx; simpl; [|done].
      rewrite lookup_insert_ne; [done|]. intros ->. congruence.
Qed.

Lemma drain_entries cfg sh (l : list nat) k e :
  entries (drain task cfg sh l) !! k = Some e
  <-> k ∈ l /\ task cfg sh k = inr e.
Proof.
  unfold drain. rewrite foldl_finish_entries. simpl.
  destruct (task cfg sh k) as [f|e'].
  - rewrite lookup_empty. split; [done|]. by intros [_ ?].
  - destruct (decide (k ∈ l)) as [Hin|Hnin].
    + split; [by intros [= ->]|]. by intros [_ [= ->]].
    + rewrite lookup_empty. split; [done|]. by intros [? _].
Qed.

Lemma drain_failures cfg sh (l : list nat) k f :
  failures (drain task cfg sh l) !! k = Some f
  <-> k ∈ l /\ task cfg sh k = inl f.
Proof.
  unfold drain. rewrite foldl_finish_failures. simpl.
  destruct (task cfg sh k) as [f'|e].
  - destruct (decide (k ∈ l)) as [Hin|Hnin].
    + split; [by intros [= ->]|]. by intros [_ [= ->]].
    + rewrite lookup_empty. split; [done|]. by intros [? _].
  - rewrite lookup_empty. split; [done|]. by intros [_ ?].
Qed.

(** The order in which the tasks complete does not show in the pool. *)
Lemma drain_completion_order cfg sh (l1 l2 : list nat) :
  l1 ≡ₚ l2 -> drain task cfg sh l1 = drain task cfg sh l2.
Proof.
  intros Hperm.
  assert (entries (drain task cfg sh l1) = entries (drain task cfg sh l2)) as He.
  { apply map_eq. intros k. apply option_eq. intros e.
    rewrite !drain_entries. by rewrite Hperm. }
  assert (failures (drain task cfg sh l1) = failures (drain task cfg sh l2)) as Hf.
  { apply map_eq. intros k. apply option_eq. intros f.
    rewrite !drain_failures. by rewrite Hperm. }
  destruct (drain task cfg sh l1), (drain task cfg sh l2).
  simpl in *. by subst.
Qed.

(** C6: when the task of a dispatched wavenumber fails, the run as
    a whole is a failure with one report and no table; the report
    holds exactly the failed wavenumbers with their failures, each
    once; and the tasks of the other wavenumbers have run to
    completion all the same, their entries gathered in the pool
    that the failed run discards. *)
Theorem failed_task_fails_run cfg sh (completion : list nat) k (f : Failure) :
  shared_tables cfg = inr sh ->
  k ∈ completion ->
  task cfg sh k = inl f ->
  exists fs,
    run_in_order shared_tables task assemble cfg completion
      = Failed (PerWavenumber fs)
    /\ (k, f) ∈ fs
    /\ NoDup fs.*1
    /\ (forall k' f', (k', f') ∈ fs
                      <-> k' ∈ completion /\ task cfg sh k' = inl f')
    /\ (forall k' e, k' ∈ completion -> task cfg sh k' = inr e ->
                     entries (drain task cfg sh completion) !! k' = Some e).
Proof.
  intros Hsh Hin Hk.
  exists (map_to_list (failures (drain task cfg sh completion))).
  assert ((k, f) ∈ map_to_list (failures (drain task cfg sh completion))) as Hkf.
  { apply elem_of_map_to_list, drain_failures. done. }
  split; [|split; [done|split; [apply NoDup_fst_map_to_list|split]]].
  - unfold run_in_order. rewrite Hsh. simpl.
    destruct (map_to_list (failures (drain task cfg sh completion))); [|done].
    by apply elem_of_nil in Hkf.
  - intros k' f'. by rewrite elem_of_map_to_list, drain_failures.
  - intros k' e Hin' He. by apply drain_entries.
Qed.

Variable wavenumbers : Config -> list nat.

(** C7: two runs of one configuration return the same result, equal
    to that of the run in grid order, whatever the order in which
    the wavenumber tasks of each run complete; a run takes the
    configuration alone and starts from an empty pool. *)
Theorem reruns_identical cfg (first second : list nat) :
  first ≡ₚ wavenumbers cfg ->
  second ≡ₚ wavenumbers cfg ->
  run_in_order shared_tables task assemble cfg first
    = run_in_order shared_tables task assemble cfg second
  /\ run_in_order shared_tables task assemble cfg first
    = run wavenumbers shared_tables task assemble cfg.
Proof.
  intros H1 H2. unfold run, run_in_order.
  destruct (shared_tables cfg) as [f|sh]; [done|]. simpl.
  rewrite (drain_completion_order cfg sh first (wavenumbers cfg) H1).
  by rewrite (drain_completion_order cfg sh second (wavenumbers cfg) H2).
Qed.

End PipelineFacts.

Section PipelineWitnesses.
Import Pipeline Vocabulary.

Lemma failed_task_fails_run_witness :
  exists fs,
    run_in_order shared_ok task_fails_at_2 assemble_entries () [ 3; 0; 2; 1 ]
      = Failed (PerWavenumber fs)
    /\ (2, {| stage := Perturbations; kind := NonConvergence |}) ∈ fs
    /\ NoDup fs.*1
    /\ (forall k' f', (k', f') ∈ fs
                      <-> k' ∈ [ 3; 0; 2; 1 ]
                          /\ task_fails_at_2 () () k' = inl f')
    /\ (forall k' e, k' ∈ [ 3; 0; 2; 1 ] -> task_fails_at_2 () () k' = inr e ->
                     entries (drain task_fails_at_2 () () [ 3; 0; 2; 1 ]) !! k'
                     = Some e).
Proof.
  apply (failed_task_fails_run shared_ok task_fails_at_2 assemble_entries
           () () [ 3; 0; 2; 1 ] 2
           {| stage := Perturbations; kind := NonConvergence |}).
  - reflexivity.
  - apply (bool_decide_unpack _). by vm_compute.
  - reflexivity.
Defined.

Lemma reruns_identical_witness :
  run_in_order shared_ok task_ok assemble_entries () [ 3; 0; 2; 1 ]
    = run_in_order shared_ok task_ok assemble_entries () [ 1; 2; 3; 0 ]
  /\ run_in_order shared_ok task_ok assemble_entries () [ 3; 0; 2; 1 ]
    = run grid4 shared_ok task_ok assemble_entries ().
Proof.
  apply (reruns_identical shared_ok task_ok assemble_entries grid4
           () [ 3; 0; 2; 1 ] [ 1; 2; 3; 0 ]).
  - apply (bool_decide_unpack _). by vm_compute.
  - apply (bool_decide_unpack _). by vm_compute.
Defined.

End PipelineWitnesses.

(** ** Paths built by [os.path.join] *)
Section JoinFacts.
Import PyStr OsPath Paths.

Lemma append_assoc (a b c : string) : (a +:+ b) +:+ c = a +:+ (b +:+ c).
Proof.
  induction a as [|x a IH]; [done|].
  by rewrite !append_String, IH.
Qed.

Lemma last_char_None (s : string) : last_char s = None -> s = EmptyString.
Proof.
  induction s as [|c s IH]; [done|]. cbn [last_char].
  destruct s; [done|]. intros H. by apply IH in H.
Qed.

Lemma last_char_String (c : ascii) (s : string) :
  s <> EmptyString -> last_char (String c s) = last_char s.
Proof. by destruct s. Qed.

Lemma has_sep_app (a b : string) : has_sep (a +:+ b) = has_sep a || has_sep b.
Proof.
  induction a as [|x a IH]; [done|].
  rewrite append_String. cbn [has_sep]. by rewrite IH, orb_assoc.
Qed.

Lemma last_char_has_sep (s : string) (l : ascii) :
  last_char s = Some l -> in_seps l = true -> has_sep s = true.
Proof.
  induction s as [|c s IH]; [done|]. intros Hl Hsep.
  destruct s as [|c' s].
  - injection Hl as ->. cbn [has_sep]. by rewrite Hsep.
  - cbn [has_sep] in *. rewrite (IH Hl Hsep). by rewrite orb_true_r.
Qed.

Lemma sep_closed_tail (c : ascii) (pre : string) :
  sep_closed (String c pre) -> sep_closed pre.
Proof.
  intros [?|(l & Hl & Hsep)]; [done|].
  destruct pre as [|c' pre]; [by left|].
  right. exists l. by rewrite last_char_String in Hl.
Qed.

(** Behind an empty or separator-terminated prefix, a suffix without
    separators is found in the rest alone. *)
Lemma endswith_behind_sep (pre b suf : string) :
  sep_closed pre -> has_sep suf = false ->
  endswith (pre +:+ b) suf = endswith b suf.
Proof.
  intros Hpre Hsuf. induction pre as [|c pre IH]; [done|].
  rewrite append_String. cbn [endswith].
  destruct (String.eqb_spec (String c (pre +:+ b)) suf) as [Heq|_].
  - destruct Hpre as [?|(l & Hl & Hsep)]; [done|].
    pose proof (last_char_has_sep _ _ Hl Hsep) as Hs.
    rewrite <- Heq, <- append_String, has_sep_app, Hs in Hsuf. done.
  - apply IH. by eapply sep_closed_tail.
Qed.


(** Every joined path is its last component behind an empty or
    separator-terminated prefix. *)
Lemma join_decompose (os a b : string) :
  exists pre, join os a b = pre +:+ b /\ sep_closed pre.
Proof.
  unfold join. destruct (String.eqb os "nt").
  - unfold ntpath_join.
    destruct (match b with String c _ => in_seps c | EmptyString => false end).
    + exists EmptyString. split; [done|by left].
    + destruct (last_char a) as [l|] eqn:Hl.
      * destruct (in_seps l) eqn:Hsep.
        -- exists a. split; [done|]. right. by exists l.
        -- exists (a +:+ "\"). split; [done|]. right. exists "\"%char.
           by rewrite last_char_app.
      * exists a. split; [done|]. left. by apply last_char_None.
  - unfold posixpath_join. destruct (startswith b "/").
    + exists EmptyString. split; [done|by left].
    + destruct (negb (truthy a) || endswith a "/") eqn:Ha.
      * exists a. split; [done|].
        apply orb_true_iff in Ha as [Ha|Ha].
        -- left. by destruct a.
        -- right. exists "/"%char. split; [|done].
           by apply (endswith_last_char a "/").
      * exists (a +:+ "/"). split; [by rewrite append_assoc|].
        right. exists "/"%char. by rewrite last_char_app.
Qed.

(** A suffix without separators is decided by the last component. *)
Lemma join_endswith (os a b suf : string) :
  has_sep suf = false -> endswith (join os a b) suf = endswith b suf.
Proof.
  intros Hsuf. destruct (join_decompose os a b) as (pre & -> & Hpre).
  by apply endswith_behind_sep.
Qed.


End JoinFacts.

(** ** [prepend] and the selection by extension *)
Section PrependFacts.
Import SetupPy PyStr OsPath Paths Vocabulary.

Local Ltac decide_by_evaluation := apply (bool_decide_unpack _); by vm_compute.

Lemma filter_endswith_prepend (env : Env) (dir suf : string) (fnames : list string) :
  has_sep suf = false ->
  List.filter (fun s => endswith s suf) (prepend env dir fnames)
  = prepend env dir (List.filter (fun s => endswith s suf) fnames).
Proof.
  intros Hsuf. unfold prepend. rewrite List.filter_map_swap. f_equal.
  apply List.filter_ext. intros f. by apply join_endswith.
Qed.



(** X2: on every platform the C library is the whole 'hyrec' group
    followed by the nine '.c' files of 'tools', and the C++ sources
    are the whole 'source' group followed by the five '.cpp' files of
    'tools', each under its own directory. *)
Theorem products_by_group (env : Env) :
  c_source_files env
  = prepend env "hyrec" hyrec_c_names ++ prepend env "tools" tools_c_names
  /\ cpp_source_files env
     = prepend env "source" source_cpp_names ++ prepend env "tools" tools_cpp_names.
Proof.
  unfold c_source_files, cpp_source_files, source_files.
  rewrite !List.filter_app.
  rewrite (filter_endswith_prepend env "hyrec" ".c") by done.
  rewrite (filter_endswith_prepend env "source" ".c") by done.
  rewrite (filter_endswith_prepend env "tools" ".c") by done.
  rewrite (filter_endswith_prepend env "hyrec" ".cpp") by done.
  rewrite (filter_endswith_prepend env "source" ".cpp") by done.
  rewrite (filter_endswith_prepend env "tools" ".cpp") by done.
  split; reflexivity.
Qed.




(** X4: on every platform no path is listed twice in [source_files],
    in the sources of 'myclib' or in the sources of the 'classy'
    extension; 'classy.pyx' is not an entry of [source_files]. *)
Theorem no_unit_listed_twice (env : Env) :
  NoDup (source_files env)
  /\ NoDup (myclib_sources env)
  /\ NoDup (Ext.sources (classy_ext env))
  /\ "classy.pyx" ∉ source_files env.
Proof.
  rewrite (myclib_sources_eq env), (classy_sources_eq env).
  rewrite (source_files_platform env), (c_source_files_platform env),
    (cpp_source_files_platform env).
  destruct (String.eqb (os_name env) "nt");
    (split; [|split; [|split]]); decide_by_evaluation.
Qed.



(** X6: for any list of names, no name is selected both as a '.c'
    and as a '.cpp' source, the two selections together hold exactly
    the names that end with '.c' or '.cpp', each as often as the list
    does, and a name with any other ending is in neither selection. *)
Theorem selection_on_any_list (l : list string) :
  Forall (fun s => s ∉ List.filter (fun s => endswith s ".cpp") l)
         (List.filter (fun s => endswith s ".c") l)
  /\ (List.filter (fun s => endswith s ".c") l
        ++ List.filter (fun s => endswith s ".cpp") l)
     ≡ₚ List.filter (fun s => endswith s ".c" || endswith s ".cpp") l
  /\ Forall (fun s => (s ∉ List.filter (fun s => endswith s ".c") l)
                      /\ (s ∉ List.filter (fun s => endswith s ".cpp") l))
            (List.filter
               (fun s => negb (endswith s ".c") && negb (endswith s ".cpp")) l).
Proof.
  split; [apply c_filter_cpp_filter_disjoint|split].
  - induction l as [|s l IH]; [done|]. cbn [List.filter].
    destruct (endswith s ".c") eqn:Hc.
    + rewrite (endswith_c_not_cpp s Hc). cbn. by f_equiv.
    + destruct (endswith s ".cpp"); cbn; [|done].
      rewrite <- Permutation_middle. by f_equiv.
  - apply Forall_forall. intros s Hs.
    apply list_elem_of_In, filter_In in Hs as [_ Hs].
    apply andb_true_iff in Hs as [Hc Hcpp].
    apply negb_true_iff in Hc, Hcpp.
    split; intros H; apply list_elem_of_In, filter_In in H as [_ H]; congruence.
Qed.

(** [include_dirs] is numpy's include directory followed by the
    four sub-folders under the root folder, in the order of the loop,
    so numpy's headers are searched first; the 'classy' extension and
    the 'myclib' library are given this same list. *)
Theorem include_dirs_shared (env : Env) :
  include_dirs env = numpy_get_include env :: prepend env root_folder sub_folders
  /\ prepend env root_folder sub_folders
     = (if String.eqb (os_name env) "nt"
        then [ ".\include"; ".\main"; ".\source"; ".\tools" ]
        else [ "./include"; "./main"; "./source"; "./tools" ])
  /\ Ext.include_dirs (classy_ext env) = include_dirs env
  /\ (myclib env).2 !! "include_dirs" = Some (include_dirs env).
Proof.
  split; [done|split; [|split; [done|]]].
  - unfold prepend, join. by destruct (String.eqb (os_name env) "nt").
  - unfold myclib. cbn [snd].
    rewrite lookup_insert_ne by done. by rewrite lookup_insert_eq.
Qed.



End PrependFacts.

(** ** The [setup] statement *)
Section MainFacts.
Import SetupPy Vocabulary Paths Script.

Variable exec_code :
  string -> gmap string string -> Outcome unit * gmap string string.
Variable cythonize_impl :
  CallArgs -> gmap string string -> Outcome (list Ext.t) * gmap string string.
Variable setup_impl :
  SetupKwargs -> gmap string string -> Outcome unit * gmap string string.

Lemma external_result {A} (ev : Event)
    (impl : gmap string string -> Outcome A * gmap string string)
    (w w' : World) (r : Outcome A) :
  external ev impl w = (r, w') -> trace w' = trace w ++ [ev].
Proof.
  intros H. pose proof (external_trace ev impl w) as Ht. by rewrite H in Ht.
Qed.

Lemma main_unfold (env : Env) (w : World) :
  main exec_code cythonize_impl setup_impl env w
  = match files w !! "generate_wrapper.py" with
    | None => (Raise (FileNotFoundError "generate_wrapper.py"), w)
    | Some code =>
        match exec exec_code code w with
        | (Raise e, w1) => (Raise e, w1)
        | (Return _, w1) =>
            match cythonize cythonize_impl (cythonize_args env) w1 with
            | (Raise e, w2) => (Raise e, w2)
            | (Return exts, w2) => setup setup_impl (setup_kwargs env exts) w2
            end
        end
    end.
Proof.
  unfold main, my_cythonize, bind, open_read.
  destruct (files w !! "generate_wrapper.py") as [code|]; [|done].
  destruct (exec exec_code code w) as [[[]|e] w1]; [|done].
  by destruct (cythonize cythonize_impl (cythonize_args env) w1) as [[exts|e] w2].
Qed.

(** X8: when the wrapper generator is there, its text runs without
    raising and [cythonize] returns, the script calls [setup] with
    what [cythonize] returned as [ext_modules], and the calls made
    are, in this order, the executed text, [cythonize] and [setup]. *)
Theorem main_success (env : Env) (w w1 w2 : World)
    (code : string) (exts : list Ext.t) :
  files w !! "generate_wrapper.py" = Some code ->
  exec exec_code code w = (Return (), w1) ->
  cythonize cythonize_impl (cythonize_args env) w1 = (Return exts, w2) ->
  main exec_code cythonize_impl setup_impl env w
    = setup setup_impl (setup_kwargs env exts) w2
  /\ ext_modules (setup_kwargs env exts) = exts
  /\ trace (main exec_code cythonize_impl setup_impl env w).2
     = trace w ++ [ EvExec code; EvCythonize (cythonize_args env);
                    EvSetup (setup_kwargs env exts) ].
Proof.
  intros Hfile Hexec Hcy.
  assert (main exec_code cythonize_impl setup_impl env w
          = setup setup_impl (setup_kwargs env exts) w2) as Hmain.
  { by rewrite main_unfold, Hfile, Hexec, Hcy. }
  split; [done|split; [done|]].
  rewrite Hmain. unfold setup. rewrite external_trace.
  rewrite (external_result _ _ _ _ _ Hcy), (external_result _ _ _ _ _ Hexec).
  by rewrite <- !app_assoc.
Qed.

(** X9: an error of [cythonize] or of [setup] ends the script with
    that error; after an error of [cythonize], [setup] has not been
    called. *)
Theorem main_passes_errors_on (env : Env) (w w1 w2 : World)
    (code : string) (e : Exn) :
  files w !! "generate_wrapper.py" = Some code ->
  exec exec_code code w = (Return (), w1) ->
  (cythonize cythonize_impl (cythonize_args env) w1 = (Raise e, w2) ->
   main exec_code cythonize_impl setup_impl env w = (Raise e, w2)
   /\ trace w2 = trace w ++ [ EvExec code; EvCythonize (cythonize_args env) ])
  /\ (forall exts w3,
        cythonize cythonize_impl (cythonize_args env) w1 = (Return exts, w2) ->
        setup setup_impl (setup_kwargs env exts) w2 = (Raise e, w3) ->
        main exec_code cythonize_impl setup_impl env w = (Raise e, w3)).
Proof.
  intros Hfile Hexec. split.
  - intros Hcy. split; [by rewrite main_unfold, Hfile, Hexec, Hcy|].
    rewrite (external_result _ _ _ _ _ Hcy), (external_result _ _ _ _ _ Hexec).
    by rewrite <- app_assoc.
  - intros exts w3 Hcy Hsetup. by rewrite main_unfold, Hfile, Hexec, Hcy.
Qed.

(** X10: whatever the files and the callees, the calls the script
    makes are an initial part of: the executed text, [cythonize],
    [setup]; so [setup] is never called before [cythonize] has
    returned, nor [cythonize] before the text has run, and none is
    called twice. *)
Theorem main_calls_in_order (env : Env) (w : World) :
  exists code exts evs,
    trace (main exec_code cythonize_impl setup_impl env w).2 = trace w ++ evs
    /\ evs `prefix_of` [ EvExec code; EvCythonize (cythonize_args env);
                         EvSetup (setup_kwargs env exts) ].
Proof.
  rewrite main_unfold.
  destruct (files w !! "generate_wrapper.py") as [code|].
  - destruct (exec exec_code code w) as [[[]|e] w1] eqn:Hexec.
    + destruct (cythonize cythonize_impl (cythonize_args env) w1)
        as [[exts|e] w2] eqn:Hcy.
      * exists code, exts,
          [ EvExec code; EvCythonize (cythonize_args env);
            EvSetup (setup_kwargs env exts) ].
        split; [|done]. unfold setup. rewrite external_trace.
        rewrite (external_result _ _ _ _ _ Hcy),
          (external_result _ _ _ _ _ Hexec).
        by rewrite <- !app_assoc.
      * exists code, [], [ EvExec code; EvCythonize (cythonize_args env) ].
        split; [|by eexists [_]]. cbn [snd].
        rewrite (external_result _ _ _ _ _ Hcy),
          (external_result _ _ _ _ _ Hexec).
        by rewrite <- app_assoc.
    + exists code, [], [ EvExec code ].
      split; [|by eexists [_; _]]. cbn [snd].
      by rewrite (external_result _ _ _ _ _ Hexec).
  - exists EmptyString, [], []. split; [by rewrite app_nil_r|].
    apply prefix_nil.
Qed.


(** X12: the packages and their data agree: every installed package
    has '*.dat' as its package data, no data is declared for another
    package, every package is under 'classy', and 'classy' is mapped
    to the root of the source tree. *)
Theorem packages_have_their_data (env : Env) (exts : list Ext.t) :
  Forall (fun p => package_data (setup_kwargs env exts) !! p = Some [ "*.dat" ]
                   /\ PyStr.startswith p "classy." = true)
         (packages (setup_kwargs env exts))
  /\ dom (package_data (setup_kwargs env exts))
     = list_to_set (packages (setup_kwargs env exts))
  /\ package_dir (setup_kwargs env exts) !! "classy" = Some EmptyString.
Proof.
  cbn [setup_kwargs packages package_data package_dir].
  split; [|split].
  - apply Forall_cons. split; [split; [|done]|].
    { by rewrite lookup_insert_eq. }
    apply Forall_cons. split; [split; [|done]|constructor].
    rewrite lookup_insert_ne by done. by rewrite lookup_insert_eq.
  - rewrite !dom_insert_L, dom_empty_L. cbn [list_to_set]. done.
  - by rewrite lookup_insert_eq.
Qed.

End MainFacts.

Section MainWitnesses.
Import SetupPy Vocabulary Paths Script.

Lemma main_success_witness :
  main exec_writes_pyx cythonize_same setup_done env_posix world_with_wrapper
    = setup setup_done (setup_kwargs env_posix [ classy_ext env_posix ])
        (cythonize cythonize_same (cythonize_args env_posix)
           (exec exec_writes_pyx "write_pyx()" world_with_wrapper).2).2
  /\ ext_modules (setup_kwargs env_posix [ classy_ext env_posix ])
     = [ classy_ext env_posix ]
  /\ trace (main exec_writes_pyx cythonize_same setup_done
              env_posix world_with_wrapper).2
     = trace world_with_wrapper
       ++ [ EvExec "write_pyx()"; EvCythonize (cythonize_args env_posix);
            EvSetup (setup_kwargs env_posix [ classy_ext env_posix ]) ].
Proof.
  apply (main_success exec_writes_pyx cythonize_same setup_done env_posix
           world_with_wrapper
           (exec exec_writes_pyx "write_pyx()" world_with_wrapper).2);
    reflexivity.
Defined.

Lemma main_passes_errors_on_witness :
  main exec_writes_pyx cythonize_raises setup_done env_posix world_with_wrapper
    = (Raise (OtherException "CompileError"),
       (cythonize cythonize_raises (cythonize_args env_posix)
          (exec exec_writes_pyx "write_pyx()" world_with_wrapper).2).2)
  /\ main exec_writes_pyx cythonize_same setup_raises env_posix world_with_wrapper
    = (Raise (OtherException "DistutilsError"),
       (setup setup_raises (setup_kwargs env_posix [ classy_ext env_posix ])
          (cythonize cythonize_same (cythonize_args env_posix)
             (exec exec_writes_pyx "write_pyx()" world_with_wrapper).2).2).2).
Proof.
  split.
  - apply (main_passes_errors_on exec_writes_pyx cythonize_raises setup_done
             env_posix world_with_wrapper
             (exec exec_writes_pyx "write_pyx()" world_with_wrapper).2
             _ "write_pyx()"); reflexivity.
  - apply (proj2
             (main_passes_errors_on exec_writes_pyx cythonize_same setup_raises
                env_posix world_with_wrapper
                (exec exec_writes_pyx "write_pyx()" world_with_wrapper).2
                (cythonize cythonize_same (cythonize_args env_posix)
                   (exec exec_writes_pyx "write_pyx()" world_with_wrapper).2).2
                "write_pyx()" (OtherException "DistutilsError")
                eq_refl eq_refl)
             [ classy_ext env_posix ]); reflexivity.
Defined.


End MainWitnesses.
